(** * AppointmentForm: the appointment-booking form of the patient frontend

    A shallow embedding of
    [src/Frontend-Patient/src/components/AppointmentForm.jsx]: the fifteen
    [useState] cells of the component as one record, its event handlers as
    computations in a small state / exception / effect-trace monad, and the
    parts of the rendered tree that depend on the state (the options of the
    two dependent selectors, the [disabled] flag, the controlled value of the
    doctor selector) as functions of the state. *)

From Stdlib Require Import String Ascii List.
From stdpp Require Import base option list relations strings gmap.
Import ListNotations.

(** ** JavaScript values

    The values that flow through the handlers: what a setter can receive from
    a destructured array, what the two HTTP collaborators answer with, and
    what is handed to the notification library. *)

#[warnings="-register-all"]
Inductive JSVal : Type :=
| JUndefined
| JNull
| JBool (b : bool)
| JStr (s : string)
| JObj (props : list (string * JSVal)).

(** ToBoolean: [undefined], [null], [false] and the empty string are falsy. *)
Definition truthy (v : JSVal) : bool :=
  match v with
  | JUndefined | JNull => false
  | JBool b => b
  | JStr s => negb (String.eqb s "")
  | JObj _ => true
  end.

(** [a || b] and [a && b]. *)
Definition js_or (a b : JSVal) : JSVal := if truthy a then a else b.
Definition js_and (a b : JSVal) : JSVal := if truthy a then b else a.

(** ToString, as a template literal applies it to an interpolated value. *)
Definition to_string (v : JSVal) : string :=
  match v with
  | JUndefined => "undefined"
  | JNull => "null"
  | JBool true => "true"
  | JBool false => "false"
  | JStr s => s
  | JObj _ => "[object Object]"
  end.

(** An own property of an object literal; a missing key reads [undefined]. *)
Fixpoint obj_get (k : string) (props : list (string * JSVal)) : JSVal :=
  match props with
  | [] => JUndefined
  | (k', v) :: rest => if String.eqb k k' then v else obj_get k rest
  end.

(** Outcome of an evaluation step that may throw. *)
Inductive result (A : Type) : Type :=
| Ok (a : A)
| Throw (err : JSVal).
Arguments Ok {A} a.
Arguments Throw {A} err.

Definition TypeError : JSVal := JObj [("name", JStr "TypeError")].

(** [v.k]: reading a property of [undefined] or [null] throws a TypeError;
    booleans and strings have none of the properties read in this component
    ([response], [data], [message]). *)
Definition get_prop (v : JSVal) (k : string) : result JSVal :=
  match v with
  | JUndefined | JNull => Throw TypeError
  | JObj props => Ok (obj_get k props)
  | JBool _ | JStr _ => Ok JUndefined
  end.

(** [v?.k]: a nullish receiver short-circuits to [undefined]. *)
Definition opt_prop (v : JSVal) (k : string) : JSVal :=
  match v with
  | JObj props => obj_get k props
  | _ => JUndefined
  end.

(** [String.prototype.split] with a one-character separator: the pieces
    between all occurrences of the separator, so at least one piece. *)
Fixpoint split (sep : ascii) (s : string) : list string :=
  match s with
  | EmptyString => [""]
  | String c rest =>
      if Ascii.eqb c sep then "" :: split sep rest
      else match split sep rest with
           | piece :: pieces => String c piece :: pieces
           | [] => [String c ""]
           end
  end.

(** Array destructuring [const [x0, x1, ...] = arr]: the element at a
    position past the end is [undefined]. *)
Definition destructure (arr : list string) (i : nat) : JSVal :=
  match arr !! i with
  | Some s => JStr s
  | None => JUndefined
  end.

(** [[...new Set(xs)]]: a Set iterates in insertion order, and adding a value
    that is already a member changes nothing. *)
Definition Set_add (acc : list string) (x : string) : list string :=
  if decide (x ∈ acc) then acc else acc ++ [x].

Definition new_Set (xs : list string) : list string :=
  fold_left Set_add xs [].

(** ** Data model *)

Module Doctor.

Record t : Type := mk {
  firstName : string;
  lastName : string;
  doctrDptmnt : string
}.

End Doctor.

(** The state cells of the component, in declaration order. The two doctor
    name cells receive destructured array elements, hence hold a [JSVal]. *)
Record State : Type := mkState {
  firstName : string;
  lastName : string;
  email : string;
  phone : string;
  aadhar : string;
  dob : string;
  gender : string;
  appointmentDate : string;
  department : string;
  doctorFirstName : JSVal;
  doctorLastName : JSVal;
  address : string;
  hasVisited : bool;
  doctors : list Doctor.t;
  departments : list string
}.

(** The [useState] initialisers. *)
Definition initial_state : State :=
  {| firstName := ""; lastName := ""; email := ""; phone := ""; aadhar := "";
     dob := ""; gender := ""; appointmentDate := ""; department := "";
     doctorFirstName := JStr ""; doctorLastName := JStr ""; address := "";
     hasVisited := false; doctors := []; departments := [] |}.

(** What the handlers do to the outside world. *)
Inductive Effect : Type :=
| PreventDefault
| AxiosGet (url : string) (config : JSVal)
| AxiosPost (url : string) (body : JSVal) (config : JSVal)
| ToastSuccess (msg : JSVal)
| ToastError (msg : JSVal)
| ConsoleError (label : string) (err : JSVal).

(** ** The handler monad: state cells, a thrown value, an effect trace *)

Definition M (A : Type) : Type := State -> result A * State * list Effect.

Definition ret {A} (a : A) : M A := fun s => (Ok a, s, []).

Definition bind {A B} (m : M A) (f : A -> M B) : M B :=
  fun s =>
    match m s with
    | (Ok a, s1, es1) =>
        match f a s1 with
        | (r, s2, es2) => (r, s2, es1 ++ es2)
        end
    | (Throw e, s1, es1) => (Throw e, s1, es1)
    end.

Definition try_catch {A} (body : M A) (handler : JSVal -> M A) : M A :=
  fun s =>
    match body s with
    | (Ok a, s1, es1) => (Ok a, s1, es1)
    | (Throw e, s1, es1) =>
        match handler e s1 with
        | (r, s2, es2) => (r, s2, es1 ++ es2)
        end
    end.

Definition lift {A} (r : result A) : M A := fun s => (r, s, []).
Definition emit (e : Effect) : M unit := fun s => (Ok tt, s, [e]).
Definition gets {A} (f : State -> A) : M A := fun s => (Ok (f s), s, []).
Definition modify (f : State -> State) : M unit := fun s => (Ok tt, f s, []).

#[global] Instance M_ret : MRet M := @ret.
#[global] Instance M_bind : MBind M := fun A B f m => bind m f.

Definition final_state {A} (out : result A * State * list Effect) : State :=
  out.1.2.
Definition effects {A} (out : result A * State * list Effect) : list Effect :=
  out.2.
Definition outcome {A} (out : result A * State * list Effect) : result A :=
  out.1.1.

(** ** State setters

    One setter per [useState] cell; each replaces its own cell and leaves the
    other fourteen as they are. *)

Definition setFirstName (v : string) (s : State) : State :=
  {| firstName := v; lastName := lastName s; email := email s;
     phone := phone s; aadhar := aadhar s; dob := dob s; gender := gender s;
     appointmentDate := appointmentDate s; department := department s;
     doctorFirstName := doctorFirstName s;
     doctorLastName := doctorLastName s; address := address s;
     hasVisited := hasVisited s; doctors := doctors s;
     departments := departments s |}.

Definition setLastName (v : string) (s : State) : State :=
  {| firstName := firstName s; lastName := v; email := email s;
     phone := phone s; aadhar := aadhar s; dob := dob s; gender := gender s;
     appointmentDate := appointmentDate s; department := department s;
     doctorFirstName := doctorFirstName s;
     doctorLastName := doctorLastName s; address := address s;
     hasVisited := hasVisited s; doctors := doctors s;
     departments := departments s |}.

Definition setEmail (v : string) (s : State) : State :=
  {| firstName := firstName s; lastName := lastName s; email := v;
     phone := phone s; aadhar := aadhar s; dob := dob s; gender := gender s;
     appointmentDate := appointmentDate s; department := department s;
     doctorFirstName := doctorFirstName s;
     doctorLastName := doctorLastName s; address := address s;
     hasVisited := hasVisited s; doctors := doctors s;
     departments := departments s |}.

Definition setPhone (v : string) (s : State) : State :=
  {| firstName := firstName s; lastName := lastName s; email := email s;
     phone := v; aadhar := aadhar s; dob := dob s; gender := gender s;
     appointmentDate := appointmentDate s; department := department s;
     doctorFirstName := doctorFirstName s;
     doctorLastName := doctorLastName s; address := address s;
     hasVisited := hasVisited s; doctors := doctors s;
     departments := departments s |}.

Definition setAadhar (v : string) (s : State) : State :=
  {| firstName := firstName s; lastName := lastName s; email := email s;
     phone := phone s; aadhar := v; dob := dob s; gender := gender s;
     appointmentDate := appointmentDate s; department := department s;
     doctorFirstName := doctorFirstName s;
     doctorLastName := doctorLastName s; address := address s;
     hasVisited := hasVisited s; doctors := doctors s;
     departments := departments s |}.

Definition setDob (v : string) (s : State) : State :=
  {| firstName := firstName s; lastName := lastName s; email := email s;
     phone := phone s; aadhar := aadhar s; dob := v; gender := gender s;
     appointmentDate := appointmentDate s; department := department s;
     doctorFirstName := doctorFirstName s;
     doctorLastName := doctorLastName s; address := address s;
     hasVisited := hasVisited s; doctors := doctors s;
     departments := departments s |}.

Definition setGender (v : string) (s : State) : State :=
  {| firstName := firstName s; lastName := lastName s; email := email s;
     phone := phone s; aadhar := aadhar s; dob := dob s; gender := v;
     appointmentDate := appointmentDate s; department := department s;
     doctorFirstName := doctorFirstName s;
     doctorLastName := doctorLastName s; address := address s;
     hasVisited := hasVisited s; doctors := doctors s;
     departments := departments s |}.

Definition setAppointmentDate (v : string) (s : State) : State :=
  {| firstName := firstName s; lastName := lastName s; email := email s;
     phone := phone s; aadhar := aadhar s; dob := dob s; gender := gender s;
     appointmentDate := v; department := department s;
     doctorFirstName := doctorFirstName s;
     doctorLastName := doctorLastName s; address := address s;
     hasVisited := hasVisited s; doctors := doctors s;
     departments := departments s |}.

Definition setDepartment (v : string) (s : State) : State :=
  {| firstName := firstName s; lastName := lastName s; email := email s;
     phone := phone s; aadhar := aadhar s; dob := dob s; gender := gender s;
     appointmentDate := appointmentDate s; department := v;
     doctorFirstName := doctorFirstName s;
     doctorLastName := doctorLastName s; address := address s;
     hasVisited := hasVisited s; doctors := doctors s;
     departments := departments s |}.

Definition setDoctorFirstName (v : JSVal) (s : State) : State :=
  {| firstName := firstName s; lastName := lastName s; email := email s;
     phone := phone s; aadhar := aadhar s; dob := dob s; gender := gender s;
     appointmentDate := appointmentDate s; department := department s;
     doctorFirstName := v; doctorLastName := doctorLastName s;
     address := address s; hasVisited := hasVisited s; doctors := doctors s;
     departments := departments s |}.

Definition setDoctorLastName (v : JSVal) (s : State) : State :=
  {| firstName := firstName s; lastName := lastName s; email := email s;
     phone := phone s; aadhar := aadhar s; dob := dob s; gender := gender s;
     appointmentDate := appointmentDate s; department := department s;
     doctorFirstName := doctorFirstName s; doctorLastName := v;
     address := address s; hasVisited := hasVisited s; doctors := doctors s;
     departments := departments s |}.

Definition setAddress (v : string) (s : State) : State :=
  {| firstName := firstName s; lastName := lastName s; email := email s;
     phone := phone s; aadhar := aadhar s; dob := dob s; gender := gender s;
     appointmentDate := appointmentDate s; department := department s;
     doctorFirstName := doctorFirstName s;
     doctorLastName := doctorLastName s; address := v;
     hasVisited := hasVisited s; doctors := doctors s;
     departments := departments s |}.

Definition setHasVisited (v : bool) (s : State) : State :=
  {| firstName := firstName s; lastName := lastName s; email := email s;
     phone := phone s; aadhar := aadhar s; dob := dob s; gender := gender s;
     appointmentDate := appointmentDate s; department := department s;
     doctorFirstName := doctorFirstName s;
     doctorLastName := doctorLastName s; address := address s;
     hasVisited := v; doctors := doctors s; departments := departments s |}.

Definition setDoctors (v : list Doctor.t) (s : State) : State :=
  {| firstName := firstName s; lastName := lastName s; email := email s;
     phone := phone s; aadhar := aadhar s; dob := dob s; gender := gender s;
     appointmentDate := appointmentDate s; department := department s;
     doctorFirstName := doctorFirstName s;
     doctorLastName := doctorLastName s; address := address s;
     hasVisited := hasVisited s; doctors := v;
     departments := departments s |}.

Definition setDepartments (v : list string) (s : State) : State :=
  {| firstName := firstName s; lastName := lastName s; email := email s;
     phone := phone s; aadhar := aadhar s; dob := dob s; gender := gender s;
     appointmentDate := appointmentDate s; department := department s;
     doctorFirstName := doctorFirstName s;
     doctorLastName := doctorLastName s; address := address s;
     hasVisited := hasVisited s; doctors := doctors s; departments := v |}.

(** ** Asynchronous collaborators

    An [await] is modelled by the way the awaited promise settles, supplied by
    the environment: it resolves with a value, or rejects with an error
    object (axios rejects with an [Error]), given here by its properties. *)

Inductive Settled (A : Type) : Type :=
| Resolved (a : A)
| Rejected (error_props : list (string * JSVal)).
Arguments Resolved {A} a.
Arguments Rejected {A} error_props.

Definition await {A} (p : Settled A) : M A :=
  lift (match p with
        | Resolved a => Ok a
        | Rejected error_props => Throw (JObj error_props)
        end).

Definition doctors_url : string := "http://localhost:4000/api/v1/user/doctors".
Definition appointment_url : string :=
  "http://localhost:4000/api/v1/appointment/post".

Definition get_config : JSVal := JObj [("withCredentials", JBool true)].
Definition post_config : JSVal :=
  JObj [("withCredentials", JBool true);
        ("headers", JObj [("Content-Type", JStr "application/json")])].

(** ** The mount effect

    [fetchDoctors], run once by [useEffect(..., [])]. The resolved response is
    taken at the shape the endpoint fixes, [{ doctors: [...] }] with string
    attributes, so the awaited value is the doctor list [data.doctors]. A
    resolved body without that array is the subject of [fetchDoctors_raw]
    below, which agrees with this definition on every other input. *)
Definition fetchDoctors (net : Settled (list Doctor.t)) : M unit :=
  try_catch
    (emit (AxiosGet doctors_url get_config);;
     data_doctors ← await net;
     modify (setDoctors data_doctors);;
     let uniqueDepts := new_Set (map Doctor.doctrDptmnt data_doctors) in
     modify (setDepartments uniqueDepts))
    (fun error =>
       emit (ConsoleError "Error fetching doctors:" error);;
       emit (ToastError (JStr "Failed to load doctors list"))).

(** The mount when the request settles before the user has touched the form;
    for a later arrival [fetchDoctors] is applied to the state reached by
    then. *)
Definition mount (net : Settled (list Doctor.t))
  : result unit * State * list Effect :=
  fetchDoctors net initial_state.

(** ** Submission *)

(** The object literal passed to [axios.post]. *)
Definition appointment_body (s : State) : JSVal :=
  JObj [("firstName", JStr (firstName s));
        ("lastName", JStr (lastName s));
        ("email", JStr (email s));
        ("phone", JStr (phone s));
        ("aadhar", JStr (aadhar s));
        ("dob", JStr (dob s));
        ("gender", JStr (gender s));
        ("appointment_date", JStr (appointmentDate s));
        ("department", JStr (department s));
        ("doctor_firstName", doctorFirstName s);
        ("doctor_lastName", doctorLastName s);
        ("hasVisited", JBool (hasVisited s));
        ("address", JStr (address s))].

(** [handleAppointment]; [net] is how the POST settles, the resolved value
    being the axios response object whose [data] is destructured. *)
Definition handleAppointment (net : Settled JSVal) : M unit :=
  emit PreventDefault;;
  try_catch
    (body ← gets appointment_body;
     emit (AxiosPost appointment_url body post_config);;
     response ← await net;
     data ← lift (get_prop response "data");
     message ← lift (get_prop data "message");
     emit (ToastSuccess message);;
     modify (setFirstName "");;
     modify (setLastName "");;
     modify (setEmail "");;
     modify (setPhone "");;
     modify (setAadhar "");;
     modify (setDob "");;
     modify (setGender "");;
     modify (setAppointmentDate "");;
     modify (setDepartment "");;
     modify (setDoctorFirstName (JStr ""));;
     modify (setDoctorLastName (JStr ""));;
     modify (setHasVisited false);;
     modify (setAddress ""))
    (fun error =>
       response ← lift (get_prop error "response");
       emit (ToastError
               (js_or (opt_prop (opt_prop response "data") "message")
                      (JStr "Something went wrong")))).

(** ** Change handlers *)

(** The part of a DOM change event the handlers read: [e.target.value] and
    [e.target.checked]. *)
Record Event : Type := mkEvent {
  target_value : string;
  target_checked : bool
}.

Definition firstName_onChange (e : Event) : M unit :=
  modify (setFirstName (target_value e)).
Definition lastName_onChange (e : Event) : M unit :=
  modify (setLastName (target_value e)).
Definition email_onChange (e : Event) : M unit :=
  modify (setEmail (target_value e)).
Definition phone_onChange (e : Event) : M unit :=
  modify (setPhone (target_value e)).
Definition aadhar_onChange (e : Event) : M unit :=
  modify (setAadhar (target_value e)).
Definition dob_onChange (e : Event) : M unit :=
  modify (setDob (target_value e)).
Definition gender_onChange (e : Event) : M unit :=
  modify (setGender (target_value e)).
Definition appointmentDate_onChange (e : Event) : M unit :=
  modify (setAppointmentDate (target_value e)).
Definition address_onChange (e : Event) : M unit :=
  modify (setAddress (target_value e)).
Definition hasVisited_onChange (e : Event) : M unit :=
  modify (setHasVisited (target_checked e)).

(** The department selector. *)
Definition department_onChange (e : Event) : M unit :=
  modify (setDepartment (target_value e));;
  modify (setDoctorFirstName (JStr ""));;
  modify (setDoctorLastName (JStr "")).

(** The doctor selector. *)
Definition doctor_onChange (e : Event) : M unit :=
  let arr := split " "%char (target_value e) in
  let fName := destructure arr 0 in
  let lName := destructure arr 1 in
  modify (setDoctorFirstName fName);;
  modify (setDoctorLastName lName).

(** ** The rendered selectors *)

(** An [<option value=...>label</option>] element. *)
Record OptionElem : Type := mkOption {
  opt_value : string;
  opt_label : string
}.

#[global] Instance OptionElem_eq_dec : EqDecision OptionElem.
Proof. solve_decision. Defined.

#[global] Instance Doctor_eq_dec : EqDecision Doctor.t.
Proof. solve_decision. Defined.

Definition gender_options : list OptionElem :=
  [mkOption "" "Select Gender"; mkOption "Male" "Male";
   mkOption "Female" "Female"; mkOption "Others" "Others"].

Definition department_placeholder : OptionElem :=
  mkOption "" "Select Department".

Definition department_options (s : State) : list OptionElem :=
  department_placeholder
    :: map (fun dept => mkOption dept dept) (departments s).

Definition doctor_placeholder : OptionElem := mkOption "" "Select Doctor".

(** The template literal [`${doc.firstName} ${doc.lastName}`]. *)
Definition full_name (doc : Doctor.t) : string :=
  Doctor.firstName doc +:+ " " +:+ Doctor.lastName doc.

Definition doctor_option (doc : Doctor.t) : OptionElem :=
  mkOption (full_name doc) (full_name doc).

Definition doctor_options (s : State) : list OptionElem :=
  doctor_placeholder
    :: map doctor_option
         (filter (fun doc => Doctor.doctrDptmnt doc = department s)
                 (doctors s)).

(** [disabled={!department}]. *)
Definition doctor_select_disabled (s : State) : bool :=
  negb (truthy (JStr (department s))).

(** The controlled value of the doctor selector. *)
Definition doctor_select_value (s : State) : string :=
  if truthy (js_and (doctorFirstName s) (doctorLastName s))
  then to_string (doctorFirstName s) +:+ " " +:+ to_string (doctorLastName s)
  else "".

(** ** Interaction as a transition system

    What a user can do to the mounted form: type into an input, pick one of
    the options a selector currently offers (the doctor selector only while
    it is not disabled), toggle the checkbox, or submit, the submission
    settling in whatever way the network decides. *)

Inductive UIEvent : Type :=
| FirstNameChange (e : Event)
| LastNameChange (e : Event)
| EmailChange (e : Event)
| PhoneChange (e : Event)
| AadharChange (e : Event)
| DobChange (e : Event)
| GenderChange (e : Event)
| AppointmentDateChange (e : Event)
| DepartmentChange (e : Event)
| DoctorChange (e : Event)
| AddressChange (e : Event)
| HasVisitedChange (e : Event)
| Submit (net : Settled JSVal).

Definition handler (ev : UIEvent) : M unit :=
  match ev with
  | FirstNameChange e => firstName_onChange e
  | LastNameChange e => lastName_onChange e
  | EmailChange e => email_onChange e
  | PhoneChange e => phone_onChange e
  | AadharChange e => aadhar_onChange e
  | DobChange e => dob_onChange e
  | GenderChange e => gender_onChange e
  | AppointmentDateChange e => appointmentDate_onChange e
  | DepartmentChange e => department_onChange e
  | DoctorChange e => doctor_onChange e
  | AddressChange e => address_onChange e
  | HasVisitedChange e => hasVisited_onChange e
  | Submit net => handleAppointment net
  end.

Definition enabled (ev : UIEvent) (s : State) : Prop :=
  match ev with
  | GenderChange e => target_value e ∈ map opt_value gender_options
  | DepartmentChange e =>
      target_value e ∈ map opt_value (department_options s)
  | DoctorChange e =>
      doctor_select_disabled s = false
      ∧ target_value e ∈ map opt_value (doctor_options s)
  | _ => True
  end.

Definition ui_step (s s' : State) : Prop :=
  ∃ ev, enabled ev s ∧ s' = final_state (handler ev s).

Definition reachable_from (s0 : State) : State -> Prop := rtc ui_step s0.

(** ** Views of an effect trace *)

Definition write_requests (es : list Effect) : list (string * JSVal * JSVal) :=
  omap (fun e => match e with
                 | AxiosPost url body config => Some (url, body, config)
                 | _ => None
                 end) es.

Definition is_notification (e : Effect) : bool :=
  match e with
  | ToastSuccess _ | ToastError _ => true
  | _ => false
  end.

Definition notifications (es : list Effect) : list Effect :=
  List.filter is_notification es.

(** ** What a submission settles to

    The value the [try] block of [handleAppointment] reaches
    [toast.success] with, or what it throws before any setter runs. *)
Definition response_message (net : Settled JSVal) : result JSVal :=
  match net with
  | Resolved response =>
      match get_prop response "data" with
      | Ok data => get_prop data "message"
      | Throw e => Throw e
      end
  | Rejected error_props => Throw (JObj error_props)
  end.

(** [error.response?.data?.message] for a thrown object. *)
Definition server_message (error : JSVal) : JSVal :=
  opt_prop (opt_prop (opt_prop error "response") "data") "message".

Definition fallback_text : JSVal := JStr "Something went wrong".

(** The state after the thirteen resetting setters. *)
Definition reset_form (s : State) : State :=
  {| firstName := ""; lastName := ""; email := ""; phone := ""; aadhar := "";
     dob := ""; gender := ""; appointmentDate := ""; department := "";
     doctorFirstName := JStr ""; doctorLastName := JStr ""; address := "";
     hasVisited := false; doctors := doctors s;
     departments := departments s |}.

(** ** The mount effect on a body without a doctor list

    [setDoctors(data.doctors)] stores whatever the resolved body holds under
    [doctors], before anything reads it: the array the endpoint promises, or
    [undefined] when the body has no such key. *)

Inductive DoctorsValue : Type :=
| DoctorsArray (ds : list Doctor.t)
| DoctorsAbsent.

(** The cells of the component when the doctors cell may hold [undefined].
    [WithList s] is the state [s]. [WithUndefined s] has [undefined] in the
    doctors cell and the other fourteen cells of [s]; the [doctors] field of
    [s] is not read in that case. *)
Inductive Cells : Type :=
| WithList (s : State)
| WithUndefined (s : State).

Definition other_cells (c : Cells) : State :=
  match c with
  | WithList s | WithUndefined s => s
  end.

(** [setDoctors(v)] for either kind of value. *)
Definition setDoctors_value (v : DoctorsValue) (c : Cells) : Cells :=
  match v with
  | DoctorsArray ds => WithList (setDoctors ds (other_cells c))
  | DoctorsAbsent => WithUndefined (other_cells c)
  end.

Definition setDepartments_cells (v : list string) (c : Cells) : Cells :=
  match c with
  | WithList s => WithList (setDepartments v s)
  | WithUndefined s => WithUndefined (setDepartments v s)
  end.

(** [data.doctors.map(doc => doc.doctrDptmnt)]: calling [map] on
    [undefined] throws a TypeError. *)
Definition doctors_map_doctrDptmnt (v : DoctorsValue) : result (list string) :=
  match v with
  | DoctorsArray ds => Ok (map Doctor.doctrDptmnt ds)
  | DoctorsAbsent => Throw TypeError
  end.

(** [fetchDoctors] with the body as it comes, by explicit state passing:
    the request, then either the rejection or the three statements of the
    [try] block in their order, and the [catch] block for whichever throws. *)
Definition fetchDoctors_raw (net : Settled DoctorsValue) (c : Cells)
  : result unit * Cells * list Effect :=
  let sent := [AxiosGet doctors_url get_config] in
  let catch (error : JSVal) (c' : Cells) :=
    (Ok tt, c',
     sent ++ [ConsoleError "Error fetching doctors:" error;
              ToastError (JStr "Failed to load doctors list")]) in
  match net with
  | Rejected error_props => catch (JObj error_props) c
  | Resolved data_doctors =>
      let c1 := setDoctors_value data_doctors c in
      match doctors_map_doctrDptmnt data_doctors with
      | Throw error => catch error c1
      | Ok mapped => (Ok tt, setDepartments_cells (new_Set mapped) c1, sent)
      end
  end.

(** The doctor options of the next render: [doctors.filter(...)] throws a
    TypeError when the doctors cell holds [undefined]. *)
Definition render_doctor_options (c : Cells) : result (list OptionElem) :=
  match c with
  | WithList s => Ok (doctor_options s)
  | WithUndefined _ => Throw TypeError
  end.

(** ** Auxiliary notions used in the statements *)

(** Whether a character occurs in a string. *)
Definition has_char (c : ascii) (s : string) : bool :=
  existsb (Ascii.eqb c) (list_ascii_of_string s).

(** The reading under which the first space alone is the boundary: the text
    before it, and the whole remainder after it when there is one. *)
Fixpoint cut_at_first (sep : ascii) (s : string) : string * option string :=
  match s with
  | EmptyString => ("", None)
  | String c rest =>
      if Ascii.eqb c sep then ("", Some rest)
      else let (before, after) := cut_at_first sep rest in
           (String c before, after)
  end.

(** The degraded form: no reference data, no department selected. *)
Definition degraded (s : State) : Prop :=
  doctors s = [] ∧ departments s = [] ∧ department s = "".

(** A doctor both of whose names are single words. *)
Definition single_word_names (doc : Doctor.t) : Prop :=
  has_char " " (Doctor.firstName doc) = false
  ∧ has_char " " (Doctor.lastName doc) = false.

(** The stored doctor names are blank (the first name is the empty string,
    the last name the empty string or, after the placeholder was chosen,
    [undefined]), or they are the names of a fetched doctor of the department
    that is currently selected. *)
Definition doctor_matches_department (s : State) : Prop :=
  (doctorFirstName s = JStr ""
   ∧ (doctorLastName s = JStr "" ∨ doctorLastName s = JUndefined))
  ∨ ∃ doc, doc ∈ doctors s
           ∧ Doctor.doctrDptmnt doc = department s
           ∧ doctorFirstName s = JStr (Doctor.firstName doc)
           ∧ doctorLastName s = JStr (Doctor.lastName doc).

(** ** Sample inputs *)

(** A filled-in form, used to instantiate the statements below. *)
Definition filled_form : State :=
  {| firstName := "Asha"; lastName := "Rao"; email := "asha@example.org";
     phone := "9876543210"; aadhar := "123412341234"; dob := "1990-04-12";
     gender := "Female"; appointmentDate := "2025-03-01";
     department := "Cardiology"; doctorFirstName := JStr "Jane";
     doctorLastName := JStr "Doe"; address := "12 Lake Road";
     hasVisited := true;
     doctors := [Doctor.mk "Jane" "Doe" "Cardiology";
                 Doctor.mk "Ravi" "Iyer" "Neurology"];
     departments := ["Cardiology"; "Neurology"] |}.

Definition sent_response : Settled JSVal :=
  Resolved (JObj [("data", JObj [("message", JStr "Appointment sent!")])]).

Definition refused_response : Settled JSVal :=
  Rejected [("response",
             JObj [("data", JObj [("message", JStr "Doctor not available")])])].

Definition network_error : list (string * JSVal) :=
  [("message", JStr "Network Error")].

(** After the failed mount the user types a first name and ticks the box. *)
Definition after_typing : State :=
  final_state
    (hasVisited_onChange (mkEvent "" true)
       (final_state
          (firstName_onChange (mkEvent "Asha" false)
             (final_state (mount (Rejected network_error)))))).

Definition jane_doe : Doctor.t := Doctor.mk "Jane" "Doe" "Cardiology".
Definition ravi_iyer : Doctor.t := Doctor.mk "Ravi" "Iyer" "Neurology".
Definition anil_rao : Doctor.t := Doctor.mk "Anil" "Rao" "Cardiology".

(** A fetched list in which a department recurs. *)
Definition three_doctors : list Doctor.t := [jane_doe; ravi_iyer; anil_rao].

(** The form after that list arrived, Neurology was selected and then the
    only doctor offered was picked. *)
Definition after_picking : State :=
  final_state
    (doctor_onChange (mkEvent "Ravi Iyer" false)
       (final_state
          (department_onChange (mkEvent "Neurology" false)
             (final_state (mount (Resolved three_doctors)))))).

(** The user typed a name and an address before the list arrived, and
    selected Neurology after it had. *)
Definition typed_before_arrival : State :=
  setAddress "12 Lake Road" (setFirstName "Asha" initial_state).
Definition typed_then_picked : State :=
  final_state
    (department_onChange (mkEvent "Neurology" false)
       (final_state (fetchDoctors (Resolved three_doctors)
                       typed_before_arrival))).

(** A 2xx answer with an empty body, and one whose body has no message. *)
Definition null_data_response : Settled JSVal :=
  Resolved (JObj [("status", JStr "204"); ("data", JNull)]).
Definition empty_body_response : Settled JSVal :=
  Resolved (JObj [("status", JStr "200"); ("data", JStr "")]).

(** * Properties *)

Ltac unfold_monad :=
  cbv [mbind mret M_bind M_ret bind ret try_catch emit gets modify lift await
       final_state effects outcome fst snd app].

(** ** Splitting *)

Lemma split_nonempty sep s : split sep s ≠ [].
Proof. destruct s as [|c r]; simpl; [done|]. by repeat case_match. Qed.

Lemma split_no_sep sep s : has_char sep s = false → split sep s = [s].
Proof.
  induction s as [|c r IH]; [done|].
  cbn [has_char list_ascii_of_string existsb]. intros H.
  apply orb_false_iff in H as [Hc Hr].
  cbn [split]. rewrite Ascii.eqb_sym, Hc. fold (has_char sep r) in Hr.
  by rewrite (IH Hr).
Qed.

Lemma split_app_sep sep a b :
  has_char sep a = false →
  split sep (a +:+ String sep b) = a :: split sep b.
Proof.
  induction a as [|c r IH]; intros H.
  - change ("" +:+ String sep b) with (String sep b).
    cbn [split]. by rewrite Ascii.eqb_refl.
  - cbn [has_char list_ascii_of_string existsb] in H.
    apply orb_false_iff in H as [Hc Hr]. fold (has_char sep r) in Hr.
    change (String c r +:+ String sep b)
      with (String c (r +:+ String sep b)).
    cbn [split]. rewrite Ascii.eqb_sym, Hc. by rewrite (IH Hr).
Qed.

(** A value made of two separator-free words is recovered as those words. *)
Lemma doctor_onChange_two_words (a b : string) (chk : bool) (s : State) :
  has_char " " a = false → has_char " " b = false →
  let s' := final_state (doctor_onChange (mkEvent (a +:+ " " +:+ b) chk) s) in
  doctorFirstName s' = JStr a ∧ doctorLastName s' = JStr b.
Proof.
  intros Ha Hb. cbv zeta. unfold doctor_onChange. cbn [target_value].
  change (a +:+ " " +:+ b) with (a +:+ String " " b).
  rewrite (split_app_sep _ _ _ Ha), (split_no_sep _ _ Hb). done.
Qed.

(** Under that reading every option value of the doctor selector is rebuilt
    by the template of the controlled value, whatever the two names are. *)
Lemma cut_at_first_rejoin (a b : string) :
  let (before, after) := cut_at_first " " (a +:+ " " +:+ b) in
  ∃ rest, after = Some rest ∧ before +:+ " " +:+ rest = a +:+ " " +:+ b.
Proof.
  induction a as [|c r IH].
  - change ("" +:+ " " +:+ b) with (String " " b). cbn. by exists b.
  - change (String c r +:+ " " +:+ b) with (String c (r +:+ " " +:+ b)).
    cbn [cut_at_first]. destruct (Ascii.eqb c " ") eqn:Hc.
    + apply Ascii.eqb_eq in Hc as ->. by eexists.
    + destruct (cut_at_first " " (r +:+ " " +:+ b)) as [before after].
      destruct IH as (rest & -> & Hrest). exists rest. split; [done|].
      change (String c before +:+ " " +:+ rest)
        with (String c (before +:+ " " +:+ rest)).
      by rewrite Hrest.
Qed.

(** ** The doctor selector's change handler *)

(** C1, evaluated on the handler. Selecting "Jane Doe" stores first name
    "Jane" and last name "Doe". Selecting "Mary Ann Smith" stores first name
    "Mary" but last name "Ann": the value is split at every space and only the
    first two pieces are kept, so "Smith" is dropped, where cutting at the
    first space alone would give "Ann Smith". The controlled value of the
    selector is then "Mary Ann", which is not the value of the option that was
    chosen. *)
Theorem C1_doctor_onChange_keeps_two_pieces (s : State) (chk : bool) :
  let jane := final_state (doctor_onChange (mkEvent "Jane Doe" chk) s) in
  let mary := final_state (doctor_onChange (mkEvent "Mary Ann Smith" chk) s) in
  let chosen := Doctor.mk "Mary" "Ann Smith" (department s) in
  (doctorFirstName jane = JStr "Jane" ∧ doctorLastName jane = JStr "Doe")
  ∧ opt_value (doctor_option chosen) = "Mary Ann Smith"
  ∧ cut_at_first " " "Mary Ann Smith" = ("Mary", Some "Ann Smith")
  ∧ split " " "Mary Ann Smith" = ["Mary"; "Ann"; "Smith"]
  ∧ doctorFirstName mary = JStr "Mary"
  ∧ doctorLastName mary = JStr "Ann"
  ∧ doctorLastName mary ≠ JStr "Ann Smith"
  ∧ doctor_select_value mary = "Mary Ann"
  ∧ doctor_select_value mary ≠ opt_value (doctor_option chosen).
Proof.
  cbv zeta. repeat split; try reflexivity; discriminate.
Qed.

(** C9. Selecting the placeholder option of the doctor selector, whose value
    is the empty string, stores the empty string as first name and [undefined]
    as last name: splitting the empty string gives the single piece "", and
    the second destructured name has no element to bind. *)
Theorem C9_placeholder_sets_lastName_undefined (s : State) (chk : bool) :
  let s' :=
    final_state (doctor_onChange (mkEvent (opt_value doctor_placeholder) chk) s)
  in
  head (doctor_options s) = Some doctor_placeholder
  ∧ opt_value doctor_placeholder = ""
  ∧ opt_label doctor_placeholder = "Select Doctor"
  ∧ split " " "" = [""]
  ∧ destructure (split " " "") 1 = JUndefined
  ∧ doctorFirstName s' = JStr ""
  ∧ doctorLastName s' = JUndefined
  ∧ doctorLastName s' ≠ JStr "".
Proof.
  cbv zeta. repeat split; try reflexivity; discriminate.
Qed.

(** ** The department selector's change handler *)

(** C2. Whatever the two doctor-name cells held, a change of the department
    selector stores the new value in [department] and stores the empty string
    in both [doctorFirstName] and [doctorLastName]; nothing else is touched
    and nothing is sent or notified. *)
Theorem C2_department_change_clears_doctor (s : State) (e : Event) :
  let out := department_onChange e s in
  department (final_state out) = target_value e
  ∧ doctorFirstName (final_state out) = JStr ""
  ∧ doctorLastName (final_state out) = JStr ""
  ∧ doctor_select_value (final_state out) = ""
  ∧ final_state out
    = setDoctorLastName (JStr "")
        (setDoctorFirstName (JStr "") (setDepartment (target_value e) s))
  ∧ outcome out = Ok tt
  ∧ effects out = [].
Proof.
  cbv zeta. repeat split; reflexivity.
Qed.

(** ** The derived department list *)

Section InsertionOrderedSet.

Lemma Set_add_elem (acc : list string) (a x : string) :
  x ∈ Set_add acc a ↔ x ∈ acc ∨ x = a.
Proof.
  unfold Set_add. case_decide as Ha.
  - split; [by left|]. by intros [?| ->].
  - rewrite elem_of_app, list_elem_of_singleton. tauto.
Qed.

Lemma Set_add_NoDup (acc : list string) (a : string) :
  NoDup acc → NoDup (Set_add acc a).
Proof.
  intros Hacc. unfold Set_add. case_decide as Ha; [done|].
  apply NoDup_app. split_and!; [done| |apply NoDup_singleton].
  intros y Hy ->%list_elem_of_singleton. contradiction.
Qed.

Lemma fold_Set_add_elem (xs acc : list string) (x : string) :
  x ∈ fold_left Set_add xs acc ↔ x ∈ acc ∨ x ∈ xs.
Proof.
  revert acc. induction xs as [|a xs IH]; intros acc; cbn [fold_left].
  - rewrite elem_of_nil. tauto.
  - rewrite IH, Set_add_elem, elem_of_cons. tauto.
Qed.

Lemma fold_Set_add_NoDup (xs acc : list string) :
  NoDup acc → NoDup (fold_left Set_add xs acc).
Proof.
  revert acc. induction xs as [|a xs IH]; intros acc Hacc; cbn [fold_left].
  - done.
  - by apply IH, Set_add_NoDup.
Qed.

Lemma new_Set_elem (xs : list string) (x : string) :
  x ∈ new_Set xs ↔ x ∈ xs.
Proof.
  unfold new_Set. rewrite fold_Set_add_elem, elem_of_nil. tauto.
Qed.

Lemma new_Set_NoDup (xs : list string) : NoDup (new_Set xs).
Proof. apply fold_Set_add_NoDup, NoDup_nil_2. Qed.

End InsertionOrderedSet.

(** C3. After a mount whose fetch resolves with a doctor list, the stored
    department list has no duplicates and holds exactly the values that occur
    as the [doctrDptmnt] of some fetched doctor, so its length is the number D
    of distinct such values; the department selector renders one option per
    entry of that list, after its fixed placeholder. *)
Theorem C3_departments_are_the_distinct_values (ds : list Doctor.t) :
  let s := final_state (mount (Resolved ds)) in
  let distinct : gset string := list_to_set (map Doctor.doctrDptmnt ds) in
  doctors s = ds
  ∧ NoDup (departments s)
  ∧ (∀ dept, dept ∈ departments s
             ↔ ∃ doc, doc ∈ ds ∧ Doctor.doctrDptmnt doc = dept)
  ∧ list_to_set (departments s) = distinct
  ∧ length (departments s) = size distinct
  ∧ department_options s
    = department_placeholder
        :: map (fun dept => mkOption dept dept) (departments s)
  ∧ length (tail (department_options s)) = size distinct.
Proof.
  cbv zeta.
  change (departments (final_state (mount (Resolved ds))))
    with (new_Set (map Doctor.doctrDptmnt ds)).
  assert (Hset : list_to_set (new_Set (map Doctor.doctrDptmnt ds))
                 =@{gset string} list_to_set (map Doctor.doctrDptmnt ds)).
  { apply set_eq. intros x. by rewrite !elem_of_list_to_set, new_Set_elem. }
  assert (Hlen : length (new_Set (map Doctor.doctrDptmnt ds))
                 = size (list_to_set (C:=gset string)
                           (map Doctor.doctrDptmnt ds))).
  { rewrite <- Hset. symmetry. apply size_list_to_set, new_Set_NoDup. }
  split_and!; try done.
  - apply new_Set_NoDup.
  - intros dept. rewrite new_Set_elem, list_elem_of_fmap.
    split; intros (doc & H1 & H2); exists doc; by subst.
  - unfold department_options. cbn [tail].
    change (departments (final_state (mount (Resolved ds))))
      with (new_Set (map Doctor.doctrDptmnt ds)).
    by rewrite length_map.
Qed.

(** ** The doctor selector *)

(** C4. In every state the doctor selector is disabled exactly when
    [department] is the empty string, and what it offers after its fixed
    placeholder is one option per fetched doctor whose [doctrDptmnt] equals
    the selected department, in the order of the fetched list. *)
Theorem C4_doctor_selector_follows_department (s : State) :
  let matching :=
    filter (fun doc => Doctor.doctrDptmnt doc = department s) (doctors s) in
  (doctor_select_disabled s = true ↔ department s = "")
  ∧ doctor_options s = doctor_placeholder :: map doctor_option matching
  ∧ (∀ doc, doc ∈ matching
            ↔ doc ∈ doctors s ∧ Doctor.doctrDptmnt doc = department s)
  ∧ matching `sublist_of` doctors s.
Proof.
  cbv zeta. split_and!.
  - unfold doctor_select_disabled. cbn [truthy]. rewrite negb_involutive.
    apply String.eqb_eq.
  - reflexivity.
  - intros doc. rewrite list_elem_of_filter. tauto.
  - apply sublist_filter.
Qed.

(** ** Submission *)

(** The whole of [handleAppointment] in one equation: the request is always
    sent; the resetting setters run only when the [try] block reaches them. *)
Lemma handleAppointment_settles (net : Settled JSVal) (s : State) :
  handleAppointment net s =
    let sent :=
      [PreventDefault;
       AxiosPost appointment_url (appointment_body s) post_config] in
    match response_message net with
    | Ok message => (Ok tt, reset_form s, sent ++ [ToastSuccess message])
    | Throw error =>
        match get_prop error "response" with
        | Ok response =>
            (Ok tt, s,
             sent ++ [ToastError
                        (js_or (opt_prop (opt_prop response "data") "message")
                               fallback_text)])
        | Throw e => (Throw e, s, sent)
        end
    end.
Proof.
  unfold handleAppointment, response_message. unfold_monad.
  destruct net as [response|error_props].
  - destruct (get_prop response "data") as [data|e].
    + destruct (get_prop data "message") as [message|e]; [reflexivity|].
      destruct (get_prop e "response"); reflexivity.
    + destruct (get_prop e "response"); reflexivity.
  - reflexivity.
Qed.

(** Whatever the [try] block throws is an object: a rejection, or the
    TypeError of reading a property of a nullish value. *)
Lemma response_message_throws_object (net : Settled JSVal) (error : JSVal) :
  response_message net = Throw error → ∃ props, error = JObj props.
Proof.
  unfold response_message, get_prop, TypeError.
  destruct net as [response|error_props]; intros H.
  - repeat case_match; simplify_eq; eauto.
  - simplify_eq. eauto.
Qed.

Lemma handleAppointment_requests (net : Settled JSVal) (s : State) :
  write_requests (effects (handleAppointment net s))
  = [(appointment_url, appointment_body s, post_config)].
Proof.
  rewrite handleAppointment_settles. cbv zeta.
  destruct (response_message net) as [message|error]; [reflexivity|].
  destruct (get_prop error "response"); reflexivity.
Qed.

(** C5. However the request settles, a submission issues exactly one write
    request. Its body has the thirteen keys of the form, each holding the
    value of the state cell of the same name, except that [appointment_date]
    holds [appointmentDate], [doctor_firstName] holds [doctorFirstName] and
    [doctor_lastName] holds [doctorLastName]. *)
Theorem C5_submit_posts_the_form_once (s : State) (net : Settled JSVal) :
  ∃ props,
    write_requests (effects (handleAppointment net s))
    = [(appointment_url, JObj props, post_config)]
    ∧ map fst props
      = ["firstName"; "lastName"; "email"; "phone"; "aadhar"; "dob"; "gender";
         "appointment_date"; "department"; "doctor_firstName";
         "doctor_lastName"; "hasVisited"; "address"]
    ∧ obj_get "firstName" props = JStr (firstName s)
    ∧ obj_get "lastName" props = JStr (lastName s)
    ∧ obj_get "email" props = JStr (email s)
    ∧ obj_get "phone" props = JStr (phone s)
    ∧ obj_get "aadhar" props = JStr (aadhar s)
    ∧ obj_get "dob" props = JStr (dob s)
    ∧ obj_get "gender" props = JStr (gender s)
    ∧ obj_get "appointment_date" props = JStr (appointmentDate s)
    ∧ obj_get "department" props = JStr (department s)
    ∧ obj_get "doctor_firstName" props = doctorFirstName s
    ∧ obj_get "doctor_lastName" props = doctorLastName s
    ∧ obj_get "hasVisited" props = JBool (hasVisited s)
    ∧ obj_get "address" props = JStr (address s).
Proof.
  eexists. split; [apply handleAppointment_requests|].
  repeat split; reflexivity.
Qed.

(** C6. When the submission resolves with a response whose [data.message] is
    the string [msg], one notification is shown, a success notification with
    text [msg], and every form cell is back at its initial value: the string
    cells and both selectors empty, [hasVisited] false. *)
Theorem C6_success_notifies_and_resets
    (s : State) (net : Settled JSVal) (msg : string) :
  response_message net = Ok (JStr msg) →
  let out := handleAppointment net s in
  outcome out = Ok tt
  ∧ notifications (effects out) = [ToastSuccess (JStr msg)]
  ∧ final_state out
    = {| firstName := ""; lastName := ""; email := ""; phone := "";
         aadhar := ""; dob := ""; gender := ""; appointmentDate := "";
         department := ""; doctorFirstName := JStr "";
         doctorLastName := JStr ""; address := ""; hasVisited := false;
         doctors := doctors s; departments := departments s |}
  ∧ department (final_state out) = department initial_state
  ∧ doctor_select_value (final_state out) = ""
  ∧ doctor_select_disabled (final_state out) = true.
Proof.
  intros Hmsg. cbv zeta. rewrite handleAppointment_settles, Hmsg.
  repeat split; reflexivity.
Qed.

Lemma C6_success_witness :
  notifications (effects (handleAppointment sent_response filled_form))
  = [ToastSuccess (JStr "Appointment sent!")]
  ∧ firstName (final_state (handleAppointment sent_response filled_form)) = ""
  ∧ hasVisited (final_state (handleAppointment sent_response filled_form))
    = false.
Proof.
  pose proof (C6_success_notifies_and_resets
                filled_form sent_response "Appointment sent!" eq_refl) as H.
  cbv zeta in H. destruct H as (_ & Hn & Hs & _).
  rewrite Hn, Hs. repeat split; reflexivity.
Defined.

(** C10. A submission that succeeds leaves the fetched doctor list and the
    derived department list as they were, so the department selector offers
    the same options afterwards, and it issues no read request. *)
Theorem C10_success_keeps_reference_data
    (s : State) (net : Settled JSVal) (message : JSVal) :
  response_message net = Ok message →
  let out := handleAppointment net s in
  doctors (final_state out) = doctors s
  ∧ departments (final_state out) = departments s
  ∧ department_options (final_state out) = department_options s
  ∧ final_state out = reset_form s
  ∧ (∀ url config, AxiosGet url config ∉ effects out).
Proof.
  intros Hmsg. cbv zeta. rewrite handleAppointment_settles, Hmsg.
  repeat split; try reflexivity.
  intros url config Hin. cbn in Hin.
  repeat (apply elem_of_cons in Hin as [Hin|Hin]; [discriminate|]).
  by apply elem_of_nil in Hin.
Qed.

Lemma C10_success_witness :
  department_options (final_state (handleAppointment sent_response filled_form))
  = [department_placeholder; mkOption "Cardiology" "Cardiology";
     mkOption "Neurology" "Neurology"].
Proof.
  pose proof (C10_success_keeps_reference_data
                filled_form sent_response _ eq_refl) as H.
  cbv zeta in H. destruct H as (_ & _ & Ho & _).
  rewrite Ho. reflexivity.
Defined.

(** The fallback is shown exactly when the carried message is falsy. *)
Lemma handleAppointment_failure
    (s : State) (net : Settled JSVal) (error : JSVal) :
  response_message net = Throw error →
  handleAppointment net s
  = (Ok tt, s,
     [PreventDefault;
      AxiosPost appointment_url (appointment_body s) post_config;
      ToastError (js_or (server_message error) fallback_text)]).
Proof.
  intros Hthrow. rewrite handleAppointment_settles, Hthrow.
  apply response_message_throws_object in Hthrow as [props ->].
  reflexivity.
Qed.

(** C7 as stated fails: a rejection whose response carries the message ""
    is answered with the fallback text, not with the carried message. *)
Lemma C7_empty_message_counterexample :
  ∃ (s : State) (error_props : list (string * JSVal)) (m : string),
    server_message (JObj error_props) = JStr m
    ∧ notifications (effects (handleAppointment (Rejected error_props) s))
      = [ToastError (JStr "Something went wrong")]
    ∧ notifications (effects (handleAppointment (Rejected error_props) s))
      ≠ [ToastError (JStr m)].
Proof.
  exists filled_form,
    [("response", JObj [("data", JObj [("message", JStr "")])])], "".
  split; [reflexivity|]. split; [reflexivity | discriminate].
Qed.

(** C7, amended. When the submission fails, throwing [error], exactly one
    notification is shown, an error notification: with the message carried by
    [error.response.data] when that is a non-empty string, and with the
    fallback text "Something went wrong" when no message is carried or the
    carried message is the empty string. No state cell changes. *)
Theorem C7_failure_notifies_and_keeps_form
    (s : State) (net : Settled JSVal) (error : JSVal) :
  response_message net = Throw error →
  let out := handleAppointment net s in
  final_state out = s
  ∧ outcome out = Ok tt
  ∧ notifications (effects out)
    = [ToastError (js_or (server_message error) fallback_text)]
  ∧ (∀ m, server_message error = JStr m → m ≠ "" →
          notifications (effects out) = [ToastError (JStr m)])
  ∧ (server_message error = JUndefined ∨ server_message error = JStr "" →
     notifications (effects out) = [ToastError (JStr "Something went wrong")]).
Proof.
  intros Hthrow. cbv zeta. rewrite (handleAppointment_failure _ _ _ Hthrow).
  split_and!; try reflexivity.
  - intros m Hm Hne. rewrite Hm. unfold js_or, truthy.
    apply String.eqb_neq in Hne. rewrite Hne. reflexivity.
  - intros [Hm|Hm]; rewrite Hm; reflexivity.
Qed.

Lemma C7_failure_witness :
  final_state (handleAppointment refused_response filled_form) = filled_form
  ∧ notifications (effects (handleAppointment refused_response filled_form))
    = [ToastError (JStr "Doctor not available")]
  ∧ notifications (effects (handleAppointment (Rejected []) filled_form))
    = [ToastError (JStr "Something went wrong")].
Proof.
  pose proof (C7_failure_notifies_and_keeps_form
                filled_form refused_response _ eq_refl) as H.
  pose proof (C7_failure_notifies_and_keeps_form
                filled_form (Rejected []) _ eq_refl) as H'.
  cbv zeta in H, H'.
  destruct H as (Hs & _ & _ & Hshown & _).
  destruct H' as (_ & _ & _ & _ & Hfb).
  split_and!.
  - exact Hs.
  - apply Hshown; [reflexivity | discriminate].
  - apply Hfb. left. reflexivity.
Defined.

(** ** A failed doctor-list fetch *)

Lemma fetchDoctors_rejected (error_props : list (string * JSVal)) (s : State) :
  fetchDoctors (Rejected error_props) s
  = (Ok tt, s,
     [AxiosGet doctors_url get_config;
      ConsoleError "Error fetching doctors:" (JObj error_props);
      ToastError (JStr "Failed to load doctors list")]).
Proof. reflexivity. Qed.

Lemma handleAppointment_degraded (net : Settled JSVal) (s : State) :
  degraded s → degraded (final_state (handleAppointment net s)).
Proof.
  intros (Hdocs & Hdepts & Hdept). rewrite handleAppointment_settles.
  cbv zeta. destruct (response_message net) as [message|error].
  - by repeat split.
  - destruct (get_prop error "response"); by repeat split.
Qed.

Lemma ui_step_degraded (s s' : State) :
  degraded s → ui_step s s' → degraded s'.
Proof.
  intros Hs (ev & Hen & ->).
  destruct ev; try (destruct Hs as (? & ? & ?); by repeat split).
  - (* the department selector offers its placeholder only *)
    destruct Hs as (Hdocs & Hdepts & Hdept).
    cbn [enabled] in Hen. unfold department_options in Hen.
    rewrite Hdepts in Hen. cbn in Hen.
    apply list_elem_of_singleton in Hen.
    repeat split; [done|done|]. exact Hen.
  - by apply handleAppointment_degraded.
Qed.

Lemma reachable_degraded (s0 s : State) :
  degraded s0 → reachable_from s0 s → degraded s.
Proof.
  intros H0 Hreach. induction Hreach as [|s1 s2 s3 Hstep _ IH]; [done|].
  apply IH. by apply (ui_step_degraded s1).
Qed.

(** On a doctor list and on a rejection the raw effect is the typed one. *)
Lemma fetchDoctors_raw_typed (ds : list Doctor.t) (s : State) :
  fetchDoctors_raw (Resolved (DoctorsArray ds)) (WithList s)
  = (outcome (fetchDoctors (Resolved ds) s),
     WithList (final_state (fetchDoctors (Resolved ds) s)),
     effects (fetchDoctors (Resolved ds) s)).
Proof. reflexivity. Qed.

Lemma fetchDoctors_raw_rejected
    (error_props : list (string * JSVal)) (s : State) :
  fetchDoctors_raw (Rejected error_props) (WithList s)
  = (outcome (fetchDoctors (Rejected error_props) s),
     WithList (final_state (fetchDoctors (Rejected error_props) s)),
     effects (fetchDoctors (Rejected error_props) s)).
Proof. reflexivity. Qed.

(** C8, evaluated on the mount effect. When the GET resolves with a body
    that has no [doctors] array, the fetch fails the way a rejection does,
    in the same [catch] block with the same single error notification, but
    the doctors cell does not remain the empty list: [setDoctors] has already
    stored [undefined] in it, and the next render throws where it filters
    the doctors, so the form does not stay usable. The rejected fetch next
    to it leaves every cell as it was and the render goes through. *)
Theorem C8_body_without_doctors_breaks_the_form
    (s : State) (error_props : list (string * JSVal)) :
  let broken := fetchDoctors_raw (Resolved DoctorsAbsent) (WithList s) in
  let rejected := fetchDoctors_raw (Rejected error_props) (WithList s) in
  (broken.1.1 = Ok tt
   ∧ broken.2
     = [AxiosGet doctors_url get_config;
        ConsoleError "Error fetching doctors:" TypeError;
        ToastError (JStr "Failed to load doctors list")]
   ∧ notifications broken.2 = [ToastError (JStr "Failed to load doctors list")]
   ∧ broken.1.2 = WithUndefined s
   ∧ (∀ s', broken.1.2 ≠ WithList s')
   ∧ render_doctor_options broken.1.2 = Throw TypeError)
  ∧ (rejected.1.1 = Ok tt
     ∧ notifications rejected.2
       = [ToastError (JStr "Failed to load doctors list")]
     ∧ rejected.1.2 = WithList s
     ∧ render_doctor_options rejected.1.2 = Ok (doctor_options s)).
Proof.
  cbv zeta. split.
  - split_and!; try reflexivity. intros s'. discriminate.
  - split_and!; reflexivity.
Qed.

(** X15. When the GET is rejected, the exception does not escape and
    exactly one notification is shown, an error notification. The doctor
    list and the department list are empty after the mount and in every
    state the user can reach from it, where the department selector offers
    its placeholder only, [department] stays the empty string and the doctor
    selector is disabled. *)
Theorem X15_rejected_fetch_degrades_the_form
    (error_props : list (string * JSVal)) (s : State) :
  reachable_from (final_state (mount (Rejected error_props))) s →
  let out := mount (Rejected error_props) in
  outcome out = Ok tt
  ∧ notifications (effects out)
    = [ToastError (JStr "Failed to load doctors list")]
  ∧ doctors (final_state out) = [] ∧ departments (final_state out) = []
  ∧ doctor_select_disabled (final_state out) = true
  ∧ doctors s = [] ∧ departments s = []
  ∧ department s = ""
  ∧ department_options s = [department_placeholder]
  ∧ doctor_options s = [doctor_placeholder]
  ∧ doctor_select_disabled s = true.
Proof.
  intros Hreach. cbv zeta.
  assert (Hdeg : degraded s).
  { apply (reachable_degraded (final_state (mount (Rejected error_props))));
      [|exact Hreach].
    unfold degraded. repeat split; reflexivity. }
  destruct Hdeg as (Hdocs & Hdepts & Hdept).
  split_and!; try reflexivity; try done.
  - unfold department_options. by rewrite Hdepts.
  - unfold doctor_options. by rewrite Hdocs.
  - unfold doctor_select_disabled. by rewrite Hdept.
Qed.

Lemma X15_rejected_fetch_witness :
  firstName after_typing = "Asha"
  ∧ departments after_typing = []
  ∧ doctor_select_disabled after_typing = true.
Proof.
  assert (Hreach : reachable_from
                     (final_state (mount (Rejected network_error)))
                     after_typing).
  { eapply rtc_l; [by exists (FirstNameChange (mkEvent "Asha" false))|].
    eapply rtc_l; [by exists (HasVisitedChange (mkEvent "" true))|].
    apply rtc_refl. }
  pose proof (X15_rejected_fetch_degrades_the_form _ _ Hreach) as H.
  cbv zeta in H.
  destruct H as (_ & _ & _ & _ & _ & _ & Hd & _ & _ & _ & Hdis).
  split; [reflexivity|]. split; [exact Hd | exact Hdis].
Defined.

(** * Further properties of the component *)

(** ** What the doctor selector can store *)

Lemma has_char_cons (sep c : ascii) (s : string) :
  has_char sep (String c s) = Ascii.eqb sep c || has_char sep s.
Proof. reflexivity. Qed.

Lemma split_pieces_clean (sep : ascii) (s : string) :
  Forall (fun piece => has_char sep piece = false) (split sep s).
Proof.
  induction s as [|c r IH]; cbn [split].
  - by constructor.
  - destruct (Ascii.eqb c sep) eqn:Hc.
    + by constructor.
    + destruct (split sep r) as [|piece pieces].
      * constructor; [|done].
        by rewrite has_char_cons, Ascii.eqb_sym, Hc.
      * inversion IH as [|? ? Hpiece Hpieces]; subst.
        constructor; [|done].
        by rewrite has_char_cons, Ascii.eqb_sym, Hc, Hpiece.
Qed.

Lemma split_has_sep (sep : ascii) (s : string) :
  has_char sep s = true → ∃ a b rest, split sep s = a :: b :: rest.
Proof.
  induction s as [|c r IH]; [done|].
  rewrite has_char_cons. cbn [split]. rewrite (Ascii.eqb_sym sep c).
  destruct (Ascii.eqb c sep); cbn [orb].
  - intros _. pose proof (split_nonempty sep r) as Hne.
    destruct (split sep r) as [|b rest]; [done|]. by eexists _, _, _.
  - intros Hr. destruct (IH Hr) as (a & b & rest & ->). by eexists _, _, _.
Qed.

Lemma doctor_onChange_state (e : Event) (s : State) :
  final_state (doctor_onChange e s)
  = setDoctorLastName (destructure (split " " (target_value e)) 1)
      (setDoctorFirstName (destructure (split " " (target_value e)) 0) s).
Proof. reflexivity. Qed.

(** X1. Round trip of the doctor selector: for a doctor whose first and last
    names are non-empty single words, choosing its option stores exactly its
    two names, and the controlled value of the selector is again the value of
    the chosen option. *)
Theorem X1_single_word_doctor_round_trip
    (doc : Doctor.t) (chk : bool) (s : State) :
  single_word_names doc →
  Doctor.firstName doc ≠ "" → Doctor.lastName doc ≠ "" →
  let s' :=
    final_state (doctor_onChange (mkEvent (opt_value (doctor_option doc)) chk) s)
  in
  doctorFirstName s' = JStr (Doctor.firstName doc)
  ∧ doctorLastName s' = JStr (Doctor.lastName doc)
  ∧ doctor_select_value s' = opt_value (doctor_option doc).
Proof.
  intros [Hf Hl] Hfne Hlne. cbv zeta.
  destruct (doctor_onChange_two_words
              (Doctor.firstName doc) (Doctor.lastName doc) chk s Hf Hl)
    as [H1 H2].
  cbn [doctor_option opt_value]. unfold full_name.
  split; [exact H1|]. split; [exact H2|].
  unfold doctor_select_value. rewrite H1, H2.
  apply String.eqb_neq in Hfne, Hlne.
  unfold js_and. cbn [truthy to_string]. rewrite Hfne. cbn [negb truthy].
  by rewrite Hlne.
Qed.

Lemma X1_round_trip_witness :
  doctor_select_value
    (final_state (doctor_onChange (mkEvent "Jane Doe" false) initial_state))
  = "Jane Doe".
Proof.
  refine (proj2 (proj2 (X1_single_word_doctor_round_trip
                          jane_doe false initial_state _ _ _)));
    [split; reflexivity | discriminate | discriminate].
Defined.

(** X2. After any change of the doctor selector the stored last name is
    [undefined] exactly when the selected value contains no space; in that
    case the whole value is stored as first name and the controlled value of
    the selector falls back to the placeholder's empty string. *)
Theorem X2_lastName_undefined_iff_no_space (e : Event) (s : State) :
  let s' := final_state (doctor_onChange e s) in
  (doctorLastName s' = JUndefined ↔ has_char " " (target_value e) = false)
  ∧ (has_char " " (target_value e) = false →
     doctorFirstName s' = JStr (target_value e)
     ∧ doctor_select_value s' = "").
Proof.
  cbv zeta. rewrite doctor_onChange_state.
  destruct (has_char " " (target_value e)) eqn:Hsp.
  - destruct (split_has_sep _ _ Hsp) as (a & b & rest & ->).
    split; [|done]. split; discriminate.
  - rewrite (split_no_sep _ _ Hsp). split; [done|]. intros _.
    split; [reflexivity|]. unfold doctor_select_value, js_and.
    cbn [setDoctorLastName setDoctorFirstName doctorFirstName doctorLastName
         destructure lookup list_lookup truthy].
    destruct (String.eqb (target_value e) "") eqn:Hv; cbn [negb truthy];
      by rewrite ?Hv.
Qed.

(** X3. Whatever value the doctor selector reports, the stored first name is
    a string without a space, and the stored last name is [undefined] or a
    string without a space: a name containing a space is never stored. *)
Theorem X3_stored_names_have_no_space (e : Event) (s : State) :
  let s' := final_state (doctor_onChange e s) in
  (∃ a, doctorFirstName s' = JStr a ∧ has_char " " a = false)
  ∧ (doctorLastName s' = JUndefined
     ∨ ∃ b, doctorLastName s' = JStr b ∧ has_char " " b = false).
Proof.
  cbv zeta. rewrite doctor_onChange_state.
  pose proof (split_pieces_clean " " (target_value e)) as Hclean.
  pose proof (split_nonempty " " (target_value e)) as Hne.
  destruct (split " " (target_value e)) as [|a [|b rest]]; [done| |].
  - inversion Hclean; subst. split; [by exists a|by left].
  - inversion Hclean as [|? ? Ha Hrest]; subst.
    inversion Hrest; subst. split; [by exists a|right; by exists b].
Qed.

(** ** Order and coverage of the department list *)

Lemma fold_Set_add_extends (xs acc : list string) :
  ∃ added, fold_left Set_add xs acc = acc ++ added ∧ added `sublist_of` xs.
Proof.
  revert acc. induction xs as [|a xs IH]; intros acc; cbn [fold_left].
  - exists []. by rewrite app_nil_r.
  - destruct (IH (Set_add acc a)) as (added & -> & Hsub).
    unfold Set_add. case_decide.
    + exists added. split; [done|]. by apply sublist_cons.
    + exists (a :: added). rewrite <- app_assoc. split; [done|].
      by apply sublist_skip.
Qed.

Lemma fold_Set_add_distinct (xs acc : list string) :
  NoDup (acc ++ xs) → fold_left Set_add xs acc = acc ++ xs.
Proof.
  revert acc. induction xs as [|a xs IH]; intros acc Hnd; cbn [fold_left].
  - by rewrite app_nil_r.
  - assert (Ha : a ∉ acc).
    { apply NoDup_app in Hnd as (_ & Hdisj & _). intros Hin.
      apply (Hdisj a Hin). by left. }
    unfold Set_add. rewrite decide_False by done.
    rewrite IH; rewrite <- app_assoc; done.
Qed.

Lemma new_Set_take (n : nat) (xs : list string) :
  new_Set (take n xs) = take (length (new_Set (take n xs))) (new_Set xs).
Proof.
  rewrite <- (take_drop n xs) at 3. unfold new_Set. rewrite fold_left_app.
  destruct (fold_Set_add_extends (drop n xs) (fold_left Set_add (take n xs) []))
    as (added & -> & _).
  by rewrite take_app_length.
Qed.

(** An earlier entry occurs in the input before the first occurrence of any
    later entry. *)
Lemma new_Set_order (xs : list string) (i j : nat) (a b : string) :
  i < j → new_Set xs !! i = Some a → new_Set xs !! j = Some b →
  ∃ k, xs !! k = Some a ∧ ∀ k', k' ≤ k → xs !! k' ≠ Some b.
Proof.
  intros Hij Ha Hb.
  assert (Hab : a ≠ b).
  { intros ->. pose proof (NoDup_lookup _ _ _ _ (new_Set_NoDup xs) Ha Hb). lia. }
  assert (Hbin : b ∈ xs) by (apply new_Set_elem; by eapply list_elem_of_lookup_2).
  destruct (list_find_elem_of (fun y => y = b) xs b Hbin eq_refl)
    as [[q y] Hfind].
  apply list_find_Some in Hfind as (Hq & -> & Hfirst).
  (* the entries derived from the first q+1 values form an initial segment
     that contains b, hence a as well *)
  pose proof (new_Set_take (S q) xs) as Hseg.
  set (m := length (new_Set (take (S q) xs))) in Hseg.
  assert (Hbseg : b ∈ take m (new_Set xs)).
  { rewrite <- Hseg. apply new_Set_elem.
    apply (list_elem_of_lookup_2 _ q). apply lookup_take_Some. split; [done|lia]. }
  apply list_elem_of_lookup_1 in Hbseg as [j' Hj'].
  apply lookup_take_Some in Hj' as [Hj' Hlt].
  assert (j' = j) as -> by (by eapply NoDup_lookup, Hb; [apply new_Set_NoDup|]).
  assert (Haseg : a ∈ new_Set (take (S q) xs)).
  { rewrite Hseg. apply (list_elem_of_lookup_2 _ i).
    apply lookup_take_Some. split; [done|lia]. }
  apply (proj1 (new_Set_elem _ _)), list_elem_of_lookup_1 in Haseg as [k Hk].
  apply lookup_take_Some in Hk as [Hk Hkq].
  exists k. split; [exact Hk|].
  assert (k ≠ q) by (intros ->; congruence).
  intros k' Hk' Hbk'. apply (Hfirst k' b Hbk'); [lia|done].
Qed.

(** X4. The department list is in the order in which the departments first
    occur in the fetched list. Whenever one department is listed before
    another, it occurs among the doctors' [doctrDptmnt] values at a position
    up to which the other does not occur. For every n, the list derived from
    the first n doctors is an initial segment of the list, so the
    departments of the first n doctors are exactly the members of that
    segment. In particular the list is an order-preserving sub-list of the
    [doctrDptmnt] values, has no duplicates and starts with the first
    doctor's department. *)
Theorem X4_departments_in_first_seen_order (ds : list Doctor.t) :
  let s := final_state (mount (Resolved ds)) in
  let values := map Doctor.doctrDptmnt ds in
  (∀ i j a b, i < j →
     departments s !! i = Some a → departments s !! j = Some b →
     ∃ k, values !! k = Some a ∧ ∀ k', k' ≤ k → values !! k' ≠ Some b)
  ∧ (∀ n, ∃ m,
       take m (departments s)
       = departments (final_state (mount (Resolved (take n ds))))
       ∧ ∀ dept, dept ∈ take m (departments s) ↔ dept ∈ take n values)
  ∧ NoDup (departments s)
  ∧ (∀ dept, dept ∈ departments s ↔ dept ∈ values)
  ∧ departments s `sublist_of` values
  ∧ head (departments s) = head values.
Proof.
  cbv zeta.
  change (departments (final_state (mount (Resolved ds))))
    with (new_Set (map Doctor.doctrDptmnt ds)).
  split_and!.
  - intros i j a b. apply new_Set_order.
  - intros n.
    change (departments (final_state (mount (Resolved (take n ds)))))
      with (new_Set (map Doctor.doctrDptmnt (take n ds))).
    replace (map Doctor.doctrDptmnt (take n ds))
      with (take n (map Doctor.doctrDptmnt ds))
      by (symmetry; apply (fmap_take Doctor.doctrDptmnt)).
    exists (length (new_Set (take n (map Doctor.doctrDptmnt ds)))).
    rewrite <- new_Set_take. split; [done|]. intros dept. apply new_Set_elem.
  - apply new_Set_NoDup.
  - intros dept. apply new_Set_elem.
  - unfold new_Set.
    destruct (fold_Set_add_extends (map Doctor.doctrDptmnt ds) [])
      as (added & -> & Hsub). done.
  - unfold new_Set. destruct (map Doctor.doctrDptmnt ds) as [|a xs]; [done|].
    cbn [fold_left]. unfold Set_add at 2.
    rewrite decide_False by apply not_elem_of_nil.
    destruct (fold_Set_add_extends xs ([] ++ [a])) as (added & -> & _).
    done.
Qed.

(** X5. When no two fetched doctors share a department, the department list
    is the doctors' [doctrDptmnt] values as fetched, one per doctor. *)
Theorem X5_distinct_departments_kept_as_fetched (ds : list Doctor.t) :
  NoDup (map Doctor.doctrDptmnt ds) →
  departments (final_state (mount (Resolved ds))) = map Doctor.doctrDptmnt ds.
Proof.
  intros Hnd.
  change (departments (final_state (mount (Resolved ds))))
    with (new_Set (map Doctor.doctrDptmnt ds)).
  unfold new_Set. by rewrite fold_Set_add_distinct.
Qed.

Lemma X5_distinct_departments_witness :
  departments (final_state (mount (Resolved [jane_doe; ravi_iyer])))
  = ["Cardiology"; "Neurology"].
Proof.
  refine (X5_distinct_departments_kept_as_fetched [jane_doe; ravi_iyer] _).
  cbn [map jane_doe ravi_iyer Doctor.doctrDptmnt].
  apply NoDup_cons. split; [|apply NoDup_singleton].
  intros Hin%list_elem_of_singleton. discriminate Hin.
Defined.

(** X6. After a successful fetch the two selectors cover the fetched list.
    Every department the department selector offers has at least one doctor:
    once it is selected the doctor selector is enabled unless the department
    is the empty string, and offers a fetched doctor of that department.
    Conversely every fetched doctor has its department among the offered
    ones and is itself offered once that department is selected. *)
Theorem X6_selectors_cover_the_fetched_doctors
    (ds : list Doctor.t) (chk : bool) :
  let s := final_state (mount (Resolved ds)) in
  let select dept := final_state (department_onChange (mkEvent dept chk) s) in
  (∀ dept, dept ∈ departments s →
     enabled (DepartmentChange (mkEvent dept chk)) s
     ∧ (dept ≠ "" → doctor_select_disabled (select dept) = false)
     ∧ ∃ doc, doc ∈ ds ∧ Doctor.doctrDptmnt doc = dept
              ∧ doctor_option doc ∈ doctor_options (select dept))
  ∧ (∀ doc, doc ∈ ds →
       Doctor.doctrDptmnt doc ∈ departments s
       ∧ doctor_option doc
         ∈ doctor_options (select (Doctor.doctrDptmnt doc))).
Proof.
  cbv zeta.
  change (departments (final_state (mount (Resolved ds))))
    with (new_Set (map Doctor.doctrDptmnt ds)).
  assert (Hoffer : ∀ doc, doc ∈ ds →
    doctor_option doc
    ∈ doctor_options
        (final_state
           (department_onChange (mkEvent (Doctor.doctrDptmnt doc) chk)
              (final_state (mount (Resolved ds)))))).
  { intros doc Hdoc. unfold doctor_options. apply elem_of_cons. right.
    apply list_elem_of_fmap. exists doc. split; [done|].
    apply list_elem_of_filter. split; [reflexivity|exact Hdoc]. }
  split.
  - intros dept Hdept. split_and!.
    + cbn [enabled target_value]. unfold department_options.
      apply elem_of_cons. right.
      change (departments (final_state (mount (Resolved ds))))
        with (new_Set (map Doctor.doctrDptmnt ds)).
      apply list_elem_of_fmap. exists (mkOption dept dept).
      split; [done|]. apply list_elem_of_fmap. by exists dept.
    + intros Hne. change (negb (negb (String.eqb dept "")) = false).
      apply String.eqb_neq in Hne. by rewrite Hne.
    + apply new_Set_elem, list_elem_of_fmap in Hdept as (doc & -> & Hdoc).
      exists doc. split_and!; [done|done|by apply Hoffer].
  - intros doc Hdoc. split; [|by apply Hoffer].
    apply new_Set_elem, list_elem_of_fmap. by exists doc.
Qed.

(** ** Invariants of the interaction *)

Lemma handleAppointment_state (net : Settled JSVal) (s : State) :
  final_state (handleAppointment net s) = reset_form s
  ∨ final_state (handleAppointment net s) = s.
Proof.
  rewrite handleAppointment_settles. cbv zeta.
  destruct (response_message net) as [message|error]; [by left|].
  destruct (get_prop error "response"); by right.
Qed.

Lemma handler_keeps_reference_data (ev : UIEvent) (s : State) :
  doctors (final_state (handler ev s)) = doctors s
  ∧ departments (final_state (handler ev s)) = departments s.
Proof.
  destruct ev; try (split; reflexivity).
  cbn [handler]. by destruct (handleAppointment_state net s) as [-> | ->].
Qed.

(** X7. No interaction with the mounted form changes the fetched doctor list
    or the department list derived from it: in every state the user can reach
    both are what they were, and the department selector offers the same
    options. *)
Theorem X7_interaction_keeps_reference_data (s0 s : State) :
  reachable_from s0 s →
  doctors s = doctors s0
  ∧ departments s = departments s0
  ∧ department_options s = department_options s0.
Proof.
  intros Hreach.
  induction Hreach as [s|s1 s2 s3 (ev & _ & ->) _ IH]; [done|].
  destruct (handler_keeps_reference_data ev s1) as [Hdocs Hdepts].
  destruct IH as (IH1 & IH2 & IH3). unfold department_options in *.
  rewrite Hdocs in IH1. rewrite Hdepts in IH2, IH3. done.
Qed.

Lemma after_picking_reachable :
  reachable_from (final_state (mount (Resolved three_doctors))) after_picking.
Proof.
  eapply rtc_l.
  { exists (DepartmentChange (mkEvent "Neurology" false)).
    split; [|reflexivity]. cbn. repeat constructor. }
  eapply rtc_l; [|apply rtc_refl].
  exists (DoctorChange (mkEvent "Ravi Iyer" false)).
  split; [|reflexivity]. split; [reflexivity|]. vm_compute.
  repeat constructor.
Qed.

Lemma X7_reference_data_witness :
  departments after_picking = ["Cardiology"; "Neurology"].
Proof.
  exact (proj1 (proj2 (X7_interaction_keeps_reference_data
                         _ _ after_picking_reachable))).
Defined.

(** X8. From the mount on, however the fetch settles, the value held for
    each of the two option-driven cells is always one of the values its
    selector offers: [department] is the empty string or a listed department,
    and [gender] is the empty string, "Male", "Female" or "Others". *)
Theorem X8_selected_values_are_offered
    (net : Settled (list Doctor.t)) (s : State) :
  reachable_from (final_state (mount net)) s →
  department s ∈ map opt_value (department_options s)
  ∧ gender s ∈ map opt_value gender_options.
Proof.
  intros Hreach.
  assert (H0 : department (final_state (mount net))
               ∈ map opt_value (department_options (final_state (mount net)))
               ∧ gender (final_state (mount net))
                 ∈ map opt_value gender_options).
  { destruct net; split; apply elem_of_cons; by left. }
  induction Hreach as [s|s1 s2 s3 (ev & Hen & ->) _ IH]; [done|].
  apply IH. clear IH. destruct H0 as [Hdept Hgen].
  destruct ev; try (split; [exact Hdept|exact Hgen]).
  - split; [exact Hdept|exact Hen].
  - split; [exact Hen|exact Hgen].
  - cbn [handler]. destruct (handleAppointment_state net0 s1) as [-> | ->].
    + split; apply elem_of_cons; by left.
    + by split.
Qed.

Lemma X8_selected_values_witness :
  department after_picking
  ∈ map opt_value (department_options after_picking).
Proof.
  exact (proj1 (X8_selected_values_are_offered
                  (Resolved three_doctors) _ after_picking_reachable)).
Defined.

Lemma doctor_onChange_full_name (doc : Doctor.t) (e : Event) (s : State) :
  single_word_names doc →
  target_value e = full_name doc →
  final_state (doctor_onChange e s)
  = setDoctorLastName (JStr (Doctor.lastName doc))
      (setDoctorFirstName (JStr (Doctor.firstName doc)) s).
Proof.
  intros [Hf Hl] Hv. rewrite doctor_onChange_state, Hv. unfold full_name.
  change (Doctor.firstName doc +:+ " " +:+ Doctor.lastName doc)
    with (Doctor.firstName doc +:+ String " " (Doctor.lastName doc)).
  by rewrite (split_app_sep _ _ _ Hf), (split_no_sep _ _ Hl).
Qed.

Lemma doctor_option_offered (e : Event) (s : State) :
  target_value e ∈ map opt_value (doctor_options s) →
  target_value e = ""
  ∨ ∃ doc, doc ∈ doctors s ∧ Doctor.doctrDptmnt doc = department s
           ∧ target_value e = full_name doc.
Proof.
  unfold doctor_options. cbn [map]. intros [H0|Hin]%elem_of_cons.
  - left. exact H0.
  - right. apply list_elem_of_fmap in Hin as (o & -> & Ho).
    apply list_elem_of_fmap in Ho as (doc & -> & Hdoc).
    apply list_elem_of_filter in Hdoc as [Hdept Hdoc]. by exists doc.
Qed.

Lemma ui_step_matches_department (s s' : State) :
  Forall single_word_names (doctors s) →
  doctor_matches_department s → ui_step s s' →
  doctor_matches_department s'.
Proof.
  intros Hwords Hs (ev & Hen & ->).
  destruct ev; try exact Hs.
  - (* the department selector blanks both names *)
    left. split; [reflexivity|by left].
  - (* the doctor selector *)
    destruct Hen as [_ Hin].
    destruct (doctor_option_offered _ _ Hin) as [H0|(doc & Hdoc & Hdept & Hv)].
    + left. cbn [handler]. rewrite doctor_onChange_state, H0.
      split; [reflexivity|by right].
    + right. exists doc. cbn [handler].
      rewrite (doctor_onChange_full_name doc e s); [done| |done].
      by apply (proj1 (Forall_forall _ _) Hwords).
  - cbn [handler]. destruct (handleAppointment_state net s) as [-> | ->];
      [|exact Hs].
    left. split; [reflexivity|by left].
Qed.

(** X9. No stale doctor/department pairing: when every fetched doctor has
    single-word names, then in every state the user can reach after the list
    arrived either both stored doctor names are blank (first name the empty
    string, last name the empty string or [undefined]), or they are together
    the two names of one fetched doctor who belongs to the department
    currently selected. *)
Theorem X9_doctor_belongs_to_selected_department
    (ds : list Doctor.t) (s : State) :
  Forall single_word_names ds →
  reachable_from (final_state (mount (Resolved ds))) s →
  doctor_matches_department s.
Proof.
  intros Hwords Hreach.
  assert (H0 : doctor_matches_department (final_state (mount (Resolved ds)))).
  { left. split; [reflexivity|by left]. }
  assert (Hd : doctors (final_state (mount (Resolved ds))) = ds)
    by reflexivity.
  induction Hreach as [s|s1 s2 s3 Hstep _ IH]; [done|].
  apply IH.
  - apply (ui_step_matches_department s1); [by rewrite Hd|done|done].
  - destruct Hstep as (ev & _ & ->).
    by rewrite (proj1 (handler_keeps_reference_data ev s1)).
Qed.

Lemma X9_matching_doctor_witness : doctor_matches_department after_picking.
Proof.
  refine (X9_doctor_belongs_to_selected_department
            three_doctors after_picking _ after_picking_reachable).
  repeat constructor.
Defined.

(** ** Every way a submission can end *)

(** X10. However the request settles, [handleAppointment] lets no exception
    escape, and its effects are, in this order: the default submit action
    prevented, the one write request, and exactly one notification. *)
Theorem X10_submission_always_notifies_once
    (net : Settled JSVal) (s : State) :
  outcome (handleAppointment net s) = Ok tt
  ∧ ∃ shown,
      effects (handleAppointment net s)
      = [PreventDefault;
         AxiosPost appointment_url (appointment_body s) post_config; shown]
      ∧ is_notification shown = true.
Proof.
  destruct (response_message net) as [message|error] eqn:Hmsg.
  - rewrite handleAppointment_settles, Hmsg. split; [done|]. by eexists.
  - rewrite (handleAppointment_failure _ _ _ Hmsg). split; [done|].
    by eexists.
Qed.

(** X11. When the request resolves but the response has no body, its [data]
    being [null] or [undefined], reading the message throws inside the [try]
    block: the user is shown the fallback error text and the form keeps every
    value, although the request was answered. *)
Theorem X11_resolved_without_data_is_reported_as_failure
    (props : list (string * JSVal)) (s : State) :
  obj_get "data" props = JNull ∨ obj_get "data" props = JUndefined →
  let out := handleAppointment (Resolved (JObj props)) s in
  final_state out = s
  ∧ notifications (effects out) = [ToastError (JStr "Something went wrong")].
Proof.
  intros Hdata. cbv zeta.
  assert (Hthrow : response_message (Resolved (JObj props)) = Throw TypeError).
  { unfold response_message. cbn [get_prop].
    by destruct Hdata as [-> | ->]. }
  by rewrite (handleAppointment_failure _ _ _ Hthrow).
Qed.

Lemma X11_no_data_witness :
  final_state (handleAppointment null_data_response filled_form) = filled_form.
Proof.
  refine (proj1 (X11_resolved_without_data_is_reported_as_failure
                   _ filled_form _)).
  left. reflexivity.
Defined.

(** X12. When the request resolves with a body that carries no [message]
    (an object without that key, or a string such as an empty body), the
    success notification is shown with [undefined] as its text and the form
    is reset all the same. *)
Theorem X12_resolved_without_message_still_resets
    (props : list (string * JSVal)) (s : State) :
  get_prop (obj_get "data" props) "message" = Ok JUndefined →
  let out := handleAppointment (Resolved (JObj props)) s in
  notifications (effects out) = [ToastSuccess JUndefined]
  ∧ final_state out = reset_form s.
Proof.
  intros Hmsg. cbv zeta. rewrite handleAppointment_settles.
  unfold response_message. cbn [get_prop].
  fold (get_prop (obj_get "data" props) "message"). by rewrite Hmsg.
Qed.

Lemma X12_no_message_witness :
  notifications (effects (handleAppointment empty_body_response filled_form))
  = [ToastSuccess JUndefined].
Proof.
  refine (proj1 (X12_resolved_without_message_still_resets
                   _ filled_form _)).
  reflexivity.
Defined.

(** ** From the fetched list to the request *)

Lemma reachable_keeps_reference_data (s0 s : State) :
  reachable_from s0 s →
  doctors s = doctors s0 ∧ departments s = departments s0.
Proof.
  intros Hreach.
  induction Hreach as [s|s1 s2 s3 (ev & _ & ->) _ IH]; [done|].
  destruct (handler_keeps_reference_data ev s1) as [Hdocs Hdepts].
  destruct IH as [IH1 IH2]. by rewrite <- Hdocs, <- Hdepts.
Qed.

(** X13. Booking a fetched doctor end to end: for a fetched doctor with
    single-word names and a non-empty department, the department selector
    offers the department, after selecting it the doctor selector is enabled
    and offers the doctor, and after picking the doctor a submission posts a
    body whose [department], [doctor_firstName] and [doctor_lastName] are
    that doctor's department and names. *)
Theorem X13_booking_posts_the_picked_doctor
    (ds : list Doctor.t) (doc : Doctor.t) (chk : bool) (net : Settled JSVal) :
  doc ∈ ds → single_word_names doc → Doctor.doctrDptmnt doc ≠ "" →
  let pick_department := mkEvent (Doctor.doctrDptmnt doc) chk in
  let pick_doctor := mkEvent (opt_value (doctor_option doc)) chk in
  let s1 := final_state (mount (Resolved ds)) in
  let s2 := final_state (department_onChange pick_department s1) in
  let s3 := final_state (doctor_onChange pick_doctor s2) in
  enabled (DepartmentChange pick_department) s1
  ∧ enabled (DoctorChange pick_doctor) s2
  ∧ ∃ props,
      write_requests (effects (handleAppointment net s3))
      = [(appointment_url, JObj props, post_config)]
      ∧ obj_get "department" props = JStr (Doctor.doctrDptmnt doc)
      ∧ obj_get "doctor_firstName" props = JStr (Doctor.firstName doc)
      ∧ obj_get "doctor_lastName" props = JStr (Doctor.lastName doc).
Proof.
  intros Hdoc Hwords Hne. cbv zeta. split_and!.
  - cbn [enabled target_value]. unfold department_options.
    apply elem_of_cons. right.
    change (departments (final_state (mount (Resolved ds))))
      with (new_Set (map Doctor.doctrDptmnt ds)).
    apply list_elem_of_fmap.
    exists (mkOption (Doctor.doctrDptmnt doc) (Doctor.doctrDptmnt doc)).
    split; [done|]. apply list_elem_of_fmap.
    exists (Doctor.doctrDptmnt doc). split; [done|].
    apply new_Set_elem, list_elem_of_fmap. by exists doc.
  - cbn [enabled target_value]. split.
    + change (negb (negb (String.eqb (Doctor.doctrDptmnt doc) "")) = false).
      apply String.eqb_neq in Hne. by rewrite Hne.
    + unfold doctor_options. apply elem_of_cons. right.
      apply list_elem_of_fmap. exists (doctor_option doc). split; [done|].
      apply list_elem_of_fmap. exists doc. split; [done|].
      apply list_elem_of_filter. split; [reflexivity|exact Hdoc].
  - eexists. split; [apply handleAppointment_requests|].
    rewrite (doctor_onChange_full_name doc); [|done|reflexivity].
    repeat split; reflexivity.
Qed.

Lemma X13_booking_witness :
  ∃ props,
    write_requests
      (effects (handleAppointment sent_response after_picking))
    = [(appointment_url, JObj props, post_config)]
    ∧ obj_get "department" props = JStr "Neurology"
    ∧ obj_get "doctor_firstName" props = JStr "Ravi"
    ∧ obj_get "doctor_lastName" props = JStr "Iyer".
Proof.
  refine (proj2 (proj2 (X13_booking_posts_the_picked_doctor
                          three_doctors ravi_iyer false sent_response
                          _ _ _))).
  - vm_compute. repeat constructor.
  - split; reflexivity.
  - discriminate.
Defined.

(** X14. Whatever the user had typed when the doctor list arrived and
    whatever was done afterwards, a successful submission leaves the
    component in the state of a freshly mounted form into which that list
    arrived before any input: every form cell at its initial value, the
    fetched doctors, the departments derived from them. *)
Theorem X14_success_returns_to_a_freshly_loaded_form
    (ds : list Doctor.t) (s_arrival s : State)
    (net : Settled JSVal) (message : JSVal) :
  reachable_from (final_state (fetchDoctors (Resolved ds) s_arrival)) s →
  response_message net = Ok message →
  final_state (handleAppointment net s)
  = final_state (fetchDoctors (Resolved ds) initial_state).
Proof.
  intros Hreach Hmsg.
  destruct (reachable_keeps_reference_data _ _ Hreach) as [Hdocs Hdepts].
  rewrite handleAppointment_settles, Hmsg. cbv zeta.
  unfold final_state at 1. cbn [fst snd]. unfold reset_form.
  by rewrite Hdocs, Hdepts.
Qed.

Lemma X14_fresh_form_witness :
  final_state (handleAppointment sent_response typed_then_picked)
  = final_state (fetchDoctors (Resolved three_doctors) initial_state).
Proof.
  refine (X14_success_returns_to_a_freshly_loaded_form
            three_doctors typed_before_arrival typed_then_picked
            sent_response _ _ eq_refl).
  eapply rtc_l; [|apply rtc_refl].
  exists (DepartmentChange (mkEvent "Neurology" false)).
  split; [|reflexivity]. cbn. repeat constructor.
Defined.
